(** * The order-placement core of the e-commerce API

    A shallow embedding of the request handlers of [src/resources/orders.py],
    [src/resources/products.py] and [src/resources/users.py], with the routes
    of [src/app.py], and the properties of the order transaction: stock
    levels, the ledger of orders, the responses sent back.

    The database is a record of three tables.  A handler is a function from
    the table contents before the request to the contents after its commit
    and the response. *)

From stdpp Require Import base option list gmap strings.
From Stdlib Require Import ZArith Lia.

#[local] Set Warnings "-register-all".

Open Scope string_scope.
Open Scope list_scope.
Open Scope Z_scope.

(** ** JSON values and responses *)

(** The values the handlers put in a response body.  A monetary amount is
    kept apart from an integer: it counts hundredths of the currency unit. *)
Inductive json : Type :=
| JInt (n : Z)
| JMoney (hundredths : Z)
| JStr (s : string)
| JArr (items : list json)
| JObj (fields : list (string * json)).

(** What a request produces: a body with a status code, or an abort raised
    by a library call ([get_or_404]), whose body is the library's and is not
    modelled. *)
Inductive response : Type :=
| Reply (body : json) (code : Z)
| Abort (code : Z).

Definition status (r : response) : Z :=
  match r with
  | Reply _ c => c
  | Abort c => c
  end.

Definition message (text : string) : json := JObj [("message", JStr text)].

(** ** Tables *)

(** Modelled from the spec: [models.py] (the classes [User], [Product],
    [Order] and the session [db]) is not among the sources.  The columns are
    those the handlers read and write and those of the spec's data model; a
    price is a fixed-point amount, in hundredths; an id is the primary key,
    assigned by the database when the row is committed. *)
Record User : Type := mkUser {
  user_pk : Z;
  username : string;
  password : string
}.

(** A product row.  Its id is the key under which the table holds it. *)
Record Product : Type := mkProduct {
  name : string;
  description : string;
  price : Z;
  stock : Z
}.

Record Order : Type := mkOrder {
  order_id : Z;
  user_id : Z;
  product_id : Z;
  quantity : Z;
  total_price : Z
}.

Record State : Type := mkState {
  users : list User;
  products : gmap Z Product;
  orders : list Order
}.

Definition empty_db : State := mkState [] ∅ [].

(** [product.stock = v] on a loaded row. *)
Definition set_stock (v : Z) (p : Product) : Product :=
  mkProduct (name p) (description p) (price p) v.

(** Modelled from the spec: the id the database gives the next row of a
    table.  Orders are never deleted, so the next order is numbered by the
    length of the ledger; the next product comes after the largest id. *)
Definition next_order_id (s : State) : Z := Z.of_nat (length (orders s)) + 1.

Definition next_user_id (s : State) : Z := Z.of_nat (length (users s)) + 1.

Definition next_product_id (s : State) : Z :=
  map_fold (fun k _ m => Z.max k m) 0 (products s) + 1.

(** ** [resources/orders.py] *)

(** The JSON body of [POST /orders], with its two integer fields. *)
Record order_data : Type := mkOrderData {
  data_product_id : Z;
  data_quantity : Z
}.

(** [OrderResource.post], below the [jwt_required] decorator: [identity] is
    what [get_jwt_identity()] returns.  [get_or_404] gives the row held under
    the id of the body or aborts; [product.id] is that id. *)
Definition OrderResource_post (identity : Z) (data : order_data) (s : State)
  : State * response :=
  match products s !! data_product_id data with
  | None => (s, Abort 404)
  | Some product =>
      if stock product <? data_quantity data
      then (s, Reply (message "Not enough stock") 400)
      else
        let total := price product * data_quantity data in
        let new_order :=
          mkOrder (next_order_id s) identity (data_product_id data)
                  (data_quantity data) total in
        let product' := set_stock (stock product - data_quantity data) product in
        (mkState (users s)
                 (<[data_product_id data := product']> (products s))
                 (orders s ++ [new_order]),
         Reply (message "Order placed successfully") 201)
  end.

Definition order_json (o : Order) : json :=
  JObj [("id", JInt (order_id o));
        ("product_id", JInt (product_id o));
        ("quantity", JInt (quantity o));
        ("total_price", JMoney (total_price o))].

(** [Order.query.filter_by(user_id=user_id).all()] *)
Definition orders_of (identity : Z) (s : State) : list Order :=
  filter (fun o => user_id o = identity) (orders s).

(** [OrderResource.get], below the decorator. *)
Definition OrderResource_get (identity : Z) (s : State) : State * response :=
  (s, Reply (JArr (order_json <$> orders_of identity s)) 200).

(** The database a successful order leaves. *)
Definition placed (identity : Z) (data : order_data) (p : Product) (s : State)
  : State :=
  mkState (users s)
          (<[data_product_id data :=
               set_stock (stock p - data_quantity data) p]> (products s))
          (orders s ++ [mkOrder (next_order_id s) identity
                                (data_product_id data) (data_quantity data)
                                (price p * data_quantity data)]).

(** The three ways out of [OrderResource.post], as a relation between the
    request, the database before and the result. *)
Inductive post_spec (identity : Z) (data : order_data) (s : State)
  : State * response -> Prop :=
| PostAbsent :
    products s !! data_product_id data = None ->
    post_spec identity data s (s, Abort 404)
| PostShort p :
    products s !! data_product_id data = Some p ->
    stock p < data_quantity data ->
    post_spec identity data s (s, Reply (message "Not enough stock") 400)
| PostEnough p :
    products s !! data_product_id data = Some p ->
    data_quantity data <= stock p ->
    post_spec identity data s
      (placed identity data p s,
       Reply (message "Order placed successfully") 201).

(** ** [resources/products.py] *)

(** The JSON body of [POST /products]. *)
Record product_data : Type := mkProductData {
  data_name : string;
  data_description : string;
  data_price : Z;
  data_stock : Z
}.

Definition product_json (pid : Z) (p : Product) : json :=
  JObj [("id", JInt pid);
        ("name", JStr (name p));
        ("price", JMoney (price p));
        ("stock", JInt (stock p))].

(** [ProductList.get] *)
Definition ProductList_get (s : State) : State * response :=
  (s, Reply (JArr ((fun kp => product_json kp.1 kp.2) <$> map_to_list (products s))) 200).

(** [ProductList.post], below the decorator: the row is built from the body
    as it comes. *)
Definition ProductList_post (data : product_data) (s : State) : State * response :=
  let new_product :=
    mkProduct (data_name data) (data_description data)
              (data_price data) (data_stock data) in
  (mkState (users s)
           (<[next_product_id s := new_product]> (products s))
           (orders s),
   Reply (message "Product added successfully") 201).

(** [ProductDetail.get] *)
Definition ProductDetail_get (pid : Z) (s : State) : State * response :=
  match products s !! pid with
  | None => (s, Abort 404)
  | Some product => (s, Reply (product_json pid product) 200)
  end.

(** [ProductDetail.delete], below the decorator. *)
Definition ProductDetail_delete (pid : Z) (s : State) : State * response :=
  match products s !! pid with
  | None => (s, Abort 404)
  | Some _ =>
      (mkState (users s) (delete pid (products s)) (orders s),
       Reply (message "Product deleted successfully") 200)
  end.

(** The [jwt_required()] decorator: without an identity the handler does not
    run and the database is left alone.  What is answered then ([refusal])
    is made by the library from a configuration that is not among the
    sources. *)
Definition jwt_required (refusal : response) (token : option Z)
    (handler : Z -> State -> State * response) (s : State) : State * response :=
  match token with
  | None => (s, refusal)
  | Some identity => handler identity s
  end.

(** ** [resources/users.py] and the routes of [app.py] *)

Record credentials : Type := mkCredentials {
  data_username : string;
  data_password : string
}.

(** A request: the route and method, the identity its bearer token resolves
    to (where the handler is decorated), and the decoded body. *)
Inductive request : Type :=
| POST_register (data : credentials)
| POST_login (data : credentials)
| GET_products
| POST_products (token : option Z) (data : product_data)
| GET_product (pid : Z)
| DELETE_product (token : option Z) (pid : Z)
| POST_orders (token : option Z) (data : order_data)
| GET_orders (token : option Z)
| GET_home.

(** No handler below writes a price.  [CatalogEdit] stands for any change
    made to the product table from outside them (a price change, a restock),
    so that a statement about "any later operation" covers it. *)
Inductive event : Type :=
| Api (r : request)
| CatalogEdit (f : gmap Z Product -> gmap Z Product).

Section Api.

(** The library functions [users.py] calls, taken as they are, and the
    answer of the decorator to a request without an identity. *)
Variable generate_password_hash : string -> string.
Variable check_password_hash : string -> string -> bool.
Variable create_access_token : Z -> string.
Variable jwt_refusal : response.

(** [RegisterUser.post] *)
Definition RegisterUser_post (data : credentials) (s : State)
  : State * response :=
  let hashed_password := generate_password_hash (data_password data) in
  let new_user := mkUser (next_user_id s) (data_username data) hashed_password in
  (mkState (users s ++ [new_user]) (products s) (orders s),
   Reply (message "User created successfully") 201).

(** [User.query.filter_by(username=...).first()] *)
Definition first_user (uname : string) (s : State) : option User :=
  head (filter (fun u => username u = uname) (users s)).

(** [LoginUser.post] *)
Definition LoginUser_post (data : credentials) (s : State) : State * response :=
  match first_user (data_username data) s with
  | Some user =>
      if check_password_hash (password user) (data_password data)
      then (s, Reply (JObj [("access_token",
                             JStr (create_access_token (user_pk user)))]) 200)
      else (s, Reply (message "Invalid credentials") 401)
  | None => (s, Reply (message "Invalid credentials") 401)
  end.

(** [home] *)
Definition home (s : State) : State * response :=
  (s, Reply (message "Welcome to T2S E-Commerce API") 200).

(** The routing table of [app.py]. *)
Definition handle (r : request) (s : State) : State * response :=
  match r with
  | POST_register data => RegisterUser_post data s
  | POST_login data => LoginUser_post data s
  | GET_products => ProductList_get s
  | POST_products token data =>
      jwt_required jwt_refusal token (fun _ => ProductList_post data) s
  | GET_product pid => ProductDetail_get pid s
  | DELETE_product token pid =>
      jwt_required jwt_refusal token (fun _ => ProductDetail_delete pid) s
  | POST_orders token data =>
      jwt_required jwt_refusal token (fun identity => OrderResource_post identity data) s
  | GET_orders token => jwt_required jwt_refusal token OrderResource_get s
  | GET_home => home s
  end.

(** The database after a sequence of requests, served one after the
    other. *)
Fixpoint run (rs : list request) (s : State) : State :=
  match rs with
  | [] => s
  | r :: rs' => run rs' (handle r s).1
  end.

Definition occur (e : event) (s : State) : State :=
  match e with
  | Api r => (handle r s).1
  | CatalogEdit f => mkState (users s) (f (products s)) (orders s)
  end.

Fixpoint evolve (es : list event) (s : State) : State :=
  match es with
  | [] => s
  | e :: es' => evolve es' (occur e s)
  end.

End Api.

(** ** Two [POST /orders] requests in flight

    [OrderResource.post] reads the product (line 11), then tests and writes
    (lines 13 to 21); it takes no lock and its write is not conditional.  A
    request in flight holds the row it has loaded in its own session, and the
    other request may run between its two steps. *)
Inductive session : Type :=
| Pending (identity : Z) (data : order_data)
| Loaded (identity : Z) (data : order_data) (product : Product)
| Finished (r : response).

(** One step of a request: the load, or the test and the commit.  The commit
    sends the stock computed from the loaded row, as [product.stock -= ...]
    computes it, to the row that now has this id; when that row is gone the
    update finds nothing to write and the request fails. *)
Definition session_step (t : session) (s : State) : State * session :=
  match t with
  | Pending identity data =>
      match products s !! data_product_id data with
      | None => (s, Finished (Abort 404))
      | Some product => (s, Loaded identity data product)
      end
  | Loaded identity data product =>
      if stock product <? data_quantity data
      then (s, Finished (Reply (message "Not enough stock") 400))
      else
        match products s !! data_product_id data with
        | None => (s, Finished (Abort 500))
        | Some row =>
            let total := price product * data_quantity data in
            let new_order :=
              mkOrder (next_order_id s) identity (data_product_id data)
                      (data_quantity data) total in
            let row' := set_stock (stock product - data_quantity data) row in
            (mkState (users s)
                     (<[data_product_id data := row']> (products s))
                     (orders s ++ [new_order]),
             Finished (Reply (message "Order placed successfully") 201))
        end
  | Finished r => (s, Finished r)
  end.

(** Which of the two requests moves next. *)
Inductive turn : Type := First | Second.

Fixpoint interleave (sched : list turn) (c : State * session * session)
  : State * session * session :=
  match sched with
  | [] => c
  | First :: sched' =>
      let '(s, a, b) := c in
      let '(s', a') := session_step a s in
      interleave sched' (s', a', b)
  | Second :: sched' =>
      let '(s, a, b) := c in
      let '(s', b') := session_step b s in
      interleave sched' (s', a, b')
  end.

(** A schedule that lets one request finish before the other starts. *)
Definition serial (sched : list turn) : Prop :=
  sched = [First; First; Second; Second] \/
  sched = [Second; Second; First; First].

(** ** Predicates of the statements *)

(** Every product has a stock of zero or more. *)
Definition stock_nonneg (s : State) : Prop :=
  map_Forall (fun _ p => 0 <= stock p) (products s).

(** A request that, if it creates a product, gives it a stock of zero or
    more.  Without an identity [POST /products] creates nothing. *)
Definition creates_nonneg (r : request) : Prop :=
  match r with
  | POST_products (Some _) data => 0 <= data_stock data
  | _ => True
  end.

(** The product of scenario A and the database that holds it under id 1. *)
Definition widget : Product := mkProduct "widget" "a widget" 1000 5.

Definition shop : State := mkState [] {[ 1 := widget ]} [].

(** The units of product [pid] that the orders of a ledger add up to. *)
Fixpoint sold (pid : Z) (l : list Order) : Z :=
  match l with
  | [] => 0
  | o :: l' =>
      (if product_id o =? pid then quantity o else 0) + sold pid l'
  end.

(** A request that does not delete product [pid]. *)
Definition keeps (pid : Z) (r : request) : Prop :=
  match r with
  | DELETE_product (Some _) k => k <> pid
  | _ => True
  end.

(** The requests whose handler has no [db.session.add], [delete] or
    [commit]: the GET routes and the login. *)
Definition reads_only (r : request) : bool :=
  match r with
  | POST_login _ | GET_products | GET_product _ | GET_orders _ | GET_home => true
  | _ => false
  end.

(** The identity a request to a decorated route carries; [None] as well for
    the routes that are not decorated. *)
Definition bearer (r : request) : option (option Z) :=
  match r with
  | POST_products token _ | DELETE_product token _
  | POST_orders token _ | GET_orders token => Some token
  | _ => None
  end.

(** A request that carries no identity: one to a route that is not
    decorated, or one to a decorated route without a valid token. *)
Definition anonymous (r : request) : Prop :=
  match bearer r with
  | Some (Some _) => False
  | _ => True
  end.

(** ** Fresh ids *)

Lemma max_key_bound (m : gmap Z Product) :
  forall k p, m !! k = Some p ->
              k <= map_fold (fun k _ acc => Z.max k acc) 0 m.
Proof.
  apply (map_fold_weak_ind
           (fun r (m : gmap Z Product) => forall k p, m !! k = Some p -> k <= r)).
  - intros k p H. rewrite lookup_empty in H. discriminate H.
  - intros i x m' r Hi IH k p H.
    destruct (decide (i = k)) as [-> | Hne]; [lia |].
    rewrite lookup_insert_ne in H by assumption.
    specialize (IH k p H). lia.
Qed.

(** A new product does not take the place of one that is there. *)
Lemma next_product_id_fresh s : products s !! next_product_id s = None.
Proof.
  destruct (products s !! next_product_id s) as [p|] eqn:H; [| reflexivity].
  apply max_key_bound in H. unfold next_product_id in H. lia.
Qed.

(** ** [OrderResource.post]: the three ways out *)

Lemma post_absent identity data s :
  products s !! data_product_id data = None ->
  OrderResource_post identity data s = (s, Abort 404).
Proof. intros H. unfold OrderResource_post. now rewrite H. Qed.

Lemma post_short identity data s p :
  products s !! data_product_id data = Some p ->
  stock p < data_quantity data ->
  OrderResource_post identity data s = (s, Reply (message "Not enough stock") 400).
Proof.
  intros H Hlt. unfold OrderResource_post. rewrite H.
  destruct (Z.ltb_spec (stock p) (data_quantity data)); [reflexivity | lia].
Qed.

Lemma post_enough identity data s p :
  products s !! data_product_id data = Some p ->
  data_quantity data <= stock p ->
  OrderResource_post identity data s =
    (placed identity data p s, Reply (message "Order placed successfully") 201).
Proof.
  intros H Hle. unfold OrderResource_post. rewrite H.
  destruct (Z.ltb_spec (stock p) (data_quantity data)); [lia | reflexivity].
Qed.

Lemma post_inv identity data s :
  post_spec identity data s (OrderResource_post identity data s).
Proof.
  destruct (products s !! data_product_id data) as [p|] eqn:H.
  - destruct (Z.lt_ge_cases (stock p) (data_quantity data)) as [Hlt|Hge].
    + rewrite (post_short _ _ _ _ H Hlt). now apply (PostShort _ _ _ p).
    + rewrite (post_enough _ _ _ _ H Hge). now apply PostEnough.
  - rewrite (post_absent _ _ _ H). now apply PostAbsent.
Qed.

(** ** Failing orders change nothing *)

(** C2: when [POST /orders] answers 400 (not enough stock) or 404 (no such
    product), the database after the call is the database before it: every
    stock is what it was and the ledger has no new order. *)
Theorem failed_order_no_mutation identity data s s' r :
  OrderResource_post identity data s = (s', r) ->
  status r = 400 \/ status r = 404 ->
  s' = s.
Proof.
  intros Hpost Hfail.
  destruct (post_inv identity data s); simplify_eq; try reflexivity.
  simpl in Hfail. lia.
Qed.

Lemma failed_order_no_mutation_witness :
  OrderResource_post 42 (mkOrderData 1 9) shop
    = (shop, Reply (message "Not enough stock") 400) /\
  shop = shop.
Proof.
  split; [reflexivity |].
  apply (failed_order_no_mutation 42 (mkOrderData 1 9) shop shop
           (Reply (message "Not enough stock") 400)).
  - reflexivity.
  - left. reflexivity.
Defined.

(** ** What a successful order writes *)

(** C9: a successful [POST /orders] changes the stock of the ordered product
    and nothing else of the catalogue, and adds one order at the end of the
    ledger: the product is still held under its id with the same name,
    description and price, every other product is the row it was, the
    orders already there are the same, and so are the users. *)
Theorem order_frame identity data s s' r :
  OrderResource_post identity data s = (s', r) ->
  status r = 201 ->
  exists p p' o,
    products s !! data_product_id data = Some p /\
    products s' !! data_product_id data = Some p' /\
    name p' = name p /\ description p' = description p /\
    price p' = price p /\
    stock p' = stock p - data_quantity data /\
    (forall k, k <> data_product_id data ->
               products s' !! k = products s !! k) /\
    orders s' = orders s ++ [o] /\
    users s' = users s.
Proof.
  intros Hpost Hok.
  destruct (post_inv identity data s) as [Hnone | p Hp Hlt | p Hp Hle];
    simplify_eq; try (simpl in Hok; lia).
  exists p, (set_stock (stock p - data_quantity data) p). eexists.
  unfold placed; simpl.
  repeat split; try reflexivity; try assumption.
  - apply lookup_insert_eq.
  - intros k Hk. apply lookup_insert_ne. congruence.
Qed.

Lemma order_frame_witness :
  exists p p' o,
    products shop !! 1 = Some p /\
    products (OrderResource_post 42 (mkOrderData 1 3) shop).1 !! 1 = Some p' /\
    name p' = name p /\ description p' = description p /\
    price p' = price p /\
    stock p' = stock p - 3 /\
    (forall k, k <> 1 ->
       products (OrderResource_post 42 (mkOrderData 1 3) shop).1 !! k
         = products shop !! k) /\
    orders (OrderResource_post 42 (mkOrderData 1 3) shop).1
      = orders shop ++ [o] /\
    users (OrderResource_post 42 (mkOrderData 1 3) shop).1 = users shop.
Proof.
  apply (order_frame 42 (mkOrderData 1 3) shop _
           (Reply (message "Order placed successfully") 201)).
  - reflexivity.
  - reflexivity.
Defined.

(** C10: an order for exactly the stock at hand, when that is more than
    zero, is accepted: the test that rejects is [stock < quantity], and the
    product is left with a stock of 0. *)
Theorem order_whole_stock identity data s p :
  products s !! data_product_id data = Some p ->
  0 < data_quantity data ->
  data_quantity data = stock p ->
  exists s' p',
    OrderResource_post identity data s =
      (s', Reply (message "Order placed successfully") 201) /\
    products s' !! data_product_id data = Some p' /\
    stock p' = 0.
Proof.
  intros Hp Hpos Heq.
  exists (placed identity data p s),
         (set_stock (stock p - data_quantity data) p).
  split; [| split].
  - apply post_enough; [assumption | lia].
  - unfold placed; simpl. apply lookup_insert_eq.
  - simpl. lia.
Qed.

Lemma order_whole_stock_witness :
  exists s' p',
    OrderResource_post 42 (mkOrderData 1 5) shop =
      (s', Reply (message "Order placed successfully") 201) /\
    products s' !! 1 = Some p' /\
    stock p' = 0.
Proof.
  apply (order_whole_stock 42 (mkOrderData 1 5) shop widget).
  - reflexivity.
  - simpl. lia.
  - reflexivity.
Defined.

(** C6: scenario A.  In a database where product 1 costs 10.00 and has 5 in
    stock, the order of user 42 for 3 of product 1 is accepted with 201; the
    ledger gains the order (product 1, quantity 3, total 30.00, user 42) and
    product 1 is left with a stock of 2. *)
Theorem scenario_A s p :
  products s !! 1 = Some p ->
  price p = 1000 ->
  stock p = 5 ->
  exists s' p',
    OrderResource_post 42 (mkOrderData 1 3) s = (s', Reply (message "Order placed successfully") 201) /\
    orders s' = orders s ++ [mkOrder (next_order_id s) 42 1 3 3000] /\
    products s' !! 1 = Some p' /\
    stock p' = 2.
Proof.
  intros Hp Hprice Hstock.
  exists (placed 42 (mkOrderData 1 3) p s), (set_stock (stock p - 3) p).
  split; [| split; [| split]].
  - apply post_enough; simpl; [assumption | lia].
  - unfold placed; simpl. now rewrite Hprice.
  - unfold placed; simpl. apply lookup_insert_eq.
  - simpl. lia.
Qed.

Lemma scenario_A_witness :
  exists s' p',
    OrderResource_post 42 (mkOrderData 1 3) shop = (s', Reply (message "Order placed successfully") 201) /\
    orders s' = orders shop ++ [mkOrder (next_order_id shop) 42 1 3 3000] /\
    products s' !! 1 = Some p' /\
    stock p' = 2.
Proof.
  apply (scenario_A shop widget); reflexivity.
Defined.

(** ** The response bodies of [POST /orders] *)

(** C7, as the claim has it, fails: the order of scenario A is accepted, and
    the body sent with 201 is the fixed message, not the order just
    created. *)
Lemma created_order_not_in_body :
  (OrderResource_post 42 (mkOrderData 1 3) shop).2
    = Reply (message "Order placed successfully") 201 /\
  last (orders (OrderResource_post 42 (mkOrderData 1 3) shop).1)
    = Some (mkOrder 1 42 1 3 3000) /\
  (OrderResource_post 42 (mkOrderData 1 3) shop).2
    <> Reply (order_json (mkOrder 1 42 1 3 3000)) 201.
Proof.
  split; [reflexivity | split; [reflexivity |]].
  intros H. discriminate H.
Qed.

(** C7, amended: an accepted order (the product is there and the quantity is
    at most its stock) is answered 201 with the message "Order placed
    successfully", and nothing else is ever sent with 201; an order for more
    than the stock is answered 400 with the message "Not enough stock", and
    nothing else is ever sent with 400. *)
Theorem order_response_bodies identity data s s' r :
  OrderResource_post identity data s = (s', r) ->
  (forall p, products s !! data_product_id data = Some p ->
             data_quantity data <= stock p ->
             r = Reply (message "Order placed successfully") 201) /\
  (forall p, products s !! data_product_id data = Some p ->
             stock p < data_quantity data ->
             r = Reply (message "Not enough stock") 400) /\
  (status r = 201 -> r = Reply (message "Order placed successfully") 201) /\
  (status r = 400 -> r = Reply (message "Not enough stock") 400).
Proof.
  intros Hpost.
  destruct (post_inv identity data s) as [Hnone | p Hp Hlt | p Hp Hle];
    simplify_eq; simpl; repeat split;
    try (intros; first [reflexivity | lia | congruence]).
  - intros q Hq Hle. rewrite Hp in Hq. simplify_eq. lia.
  - intros q Hq Hlt'. rewrite Hp in Hq. simplify_eq. lia.
Qed.

Lemma order_response_bodies_witness :
  (forall p, products shop !! 1 = Some p -> 3 <= stock p ->
             (OrderResource_post 42 (mkOrderData 1 3) shop).2
               = Reply (message "Order placed successfully") 201) /\
  (forall p, products shop !! 1 = Some p -> stock p < 3 ->
             (OrderResource_post 42 (mkOrderData 1 3) shop).2
               = Reply (message "Not enough stock") 400) /\
  (status (OrderResource_post 42 (mkOrderData 1 3) shop).2 = 201 ->
   (OrderResource_post 42 (mkOrderData 1 3) shop).2
     = Reply (message "Order placed successfully") 201) /\
  (status (OrderResource_post 42 (mkOrderData 1 3) shop).2 = 400 ->
   (OrderResource_post 42 (mkOrderData 1 3) shop).2
     = Reply (message "Not enough stock") 400).
Proof.
  apply (order_response_bodies 42 (mkOrderData 1 3) shop
           (OrderResource_post 42 (mkOrderData 1 3) shop).1).
  reflexivity.
Defined.

(** ** [GET /orders] *)

(** C8: the body of [GET /orders] is the encoding, order by order, of a list
    that holds exactly the orders of the ledger whose [user_id] is the
    caller's identity, in the ledger's sequence; the database is not
    changed. *)
Theorem own_orders_only identity s :
  exists l : list Order,
    OrderResource_get identity s = (s, Reply (JArr (order_json <$> l)) 200) /\
    (forall o, o ∈ l <-> o ∈ orders s /\ user_id o = identity) /\
    l `sublist_of` orders s.
Proof.
  exists (orders_of identity s). split; [reflexivity | split].
  - intros o. unfold orders_of. rewrite list_elem_of_filter. tauto.
  - unfold orders_of. apply sublist_filter.
Qed.

(** ** Orders for a quantity of zero or less *)

(** C3, as the claim has it, fails: an order of user 42 for -2 of product 1
    is not rejected.  It is answered 201, the ledger gains an order and the
    stock of product 1 is no longer 5. *)
Lemma nonpositive_quantity_accepted :
  OrderResource_post 42 (mkOrderData 1 (-2)) shop
    = (mkState [] {[ 1 := mkProduct "widget" "a widget" 1000 7 ]}
               [mkOrder 1 42 1 (-2) (-2000)],
       Reply (message "Order placed successfully") 201).
Proof. reflexivity. Qed.

(** C3, amended: [OrderResource.post] does not look at the sign of the
    quantity.  With a quantity of zero or less the product is looked up as
    for any order: when it is absent the call aborts with 404 and the
    database is unchanged; when it is there with a stock of zero or more,
    the call is answered 201 and the ledger gains one order with that
    quantity and the total [price * quantity]. *)
Theorem nonpositive_quantity_unchecked identity data s :
  data_quantity data <= 0 ->
  (products s !! data_product_id data = None ->
   OrderResource_post identity data s = (s, Abort 404)) /\
  (forall p, products s !! data_product_id data = Some p ->
             0 <= stock p ->
   exists s',
     OrderResource_post identity data s
       = (s', Reply (message "Order placed successfully") 201) /\
     orders s' = orders s ++
       [mkOrder (next_order_id s) identity (data_product_id data)
                (data_quantity data) (price p * data_quantity data)]).
Proof.
  intros Hq. split.
  - apply post_absent.
  - intros p Hp Hstock. exists (placed identity data p s). split.
    + apply post_enough; [assumption | lia].
    + reflexivity.
Qed.

Lemma nonpositive_quantity_unchecked_witness :
  (products shop !! 1 = None ->
   OrderResource_post 42 (mkOrderData 1 0) shop = (shop, Abort 404)) /\
  (forall p, products shop !! 1 = Some p ->
             0 <= stock p ->
   exists s',
     OrderResource_post 42 (mkOrderData 1 0) shop
       = (s', Reply (message "Order placed successfully") 201) /\
     orders s' = orders shop ++
       [mkOrder (next_order_id shop) 42 1 0 (price p * 0)]).
Proof.
  apply (nonpositive_quantity_unchecked 42 (mkOrderData 1 0) shop).
  simpl. lia.
Defined.

(** ** The ledger only grows, the stock stays at zero or more *)

Section Runs.

Variable generate_password_hash : string -> string.
Variable check_password_hash : string -> string -> bool.
Variable create_access_token : Z -> string.
Variable jwt_refusal : response.

#[local] Abbreviation handle :=
  (handle generate_password_hash check_password_hash create_access_token
     jwt_refusal).
#[local] Abbreviation run :=
  (run generate_password_hash check_password_hash create_access_token
     jwt_refusal).
#[local] Abbreviation occur :=
  (occur generate_password_hash check_password_hash create_access_token
     jwt_refusal).
#[local] Abbreviation evolve :=
  (evolve generate_password_hash check_password_hash create_access_token
     jwt_refusal).

Lemma post_orders_grow identity data s :
  orders s `prefix_of` orders (OrderResource_post identity data s).1.
Proof.
  destruct (post_inv identity data s); simpl;
    first [reflexivity | apply prefix_app_r; reflexivity].
Qed.

Lemma handle_orders_grow r s : orders s `prefix_of` orders (handle r s).1.
Proof.
  destruct r as [d | d | | [i|] d | pid | [i|] pid | [i|] d | [i|] | ];
    simpl; try reflexivity.
  - unfold LoginUser_post.
    destruct (first_user _ _) as [u|]; [| reflexivity].
    destruct (check_password_hash _ _); reflexivity.
  - unfold ProductDetail_get. destruct (products s !! pid); reflexivity.
  - unfold ProductDetail_delete. destruct (products s !! pid); reflexivity.
  - apply post_orders_grow.
Qed.

Lemma occur_orders_grow e s : orders s `prefix_of` orders (occur e s).
Proof.
  destruct e as [r | f]; simpl; [apply handle_orders_grow | reflexivity].
Qed.

Lemma evolve_orders_grow es :
  forall s, orders s `prefix_of` orders (evolve es s).
Proof.
  induction es as [| e es IH]; intros s; simpl; [reflexivity |].
  etransitivity; [apply occur_orders_grow | apply IH].
Qed.

(** C4: a successful [POST /orders] ends the ledger with an order whose
    total is the price of the product as it was in the database before the
    call, times the quantity; whatever happens afterwards (any requests of
    the API, product deletions among them, and any change of the product
    table from outside, price changes among them), the ledger still holds
    that order, with that total, at the same place. *)
Theorem price_snapshot identity data s s' r es :
  OrderResource_post identity data s = (s', r) ->
  status r = 201 ->
  exists p o,
    products s !! data_product_id data = Some p /\
    orders s' = orders s ++ [o] /\
    quantity o = data_quantity data /\
    total_price o = price p * data_quantity data /\
    orders (evolve es s') !! length (orders s) = Some o.
Proof.
  intros Hpost Hok.
  destruct (post_inv identity data s) as [Hnone | p Hp Hlt | p Hp Hle];
    simplify_eq; try (simpl in Hok; lia).
  exists p. eexists. split; [assumption |].
  split; [reflexivity |]. split; [reflexivity |]. split; [reflexivity |].
  destruct (evolve_orders_grow es (placed identity data p s)) as [k Hk].
  rewrite Hk. unfold placed; simpl.
  rewrite <- app_assoc. rewrite lookup_app_r by lia.
  now rewrite Nat.sub_diag.
Qed.

Lemma handle_stock_nonneg r s :
  creates_nonneg r -> stock_nonneg s -> stock_nonneg (handle r s).1.
Proof.
  intros Hr Hs.
  destruct r as [d | d | | [i|] d | pid | [i|] pid | [i|] d | [i|] | ];
    simpl; try assumption.
  - unfold LoginUser_post.
    destruct (first_user _ _) as [u|]; [| assumption].
    destruct (check_password_hash _ _); assumption.
  - apply map_Forall_insert_2; [exact Hr | exact Hs].
  - unfold ProductDetail_get. destruct (products s !! pid); assumption.
  - unfold ProductDetail_delete.
    destruct (products s !! pid); [| assumption].
    apply map_Forall_delete. exact Hs.
  - destruct (post_inv i d s) as [Hnone | p Hp Hlt | p Hp Hle];
      simpl; try assumption.
    apply map_Forall_insert_2; [simpl; lia | exact Hs].
Qed.

(** C1, amended: from a database where every stock is zero or more, any
    sequence of requests in which each product creation carries a stock of
    zero or more leaves every stock at zero or more.  Orders and deletions
    need no condition. *)
Theorem stock_never_negative rs :
  forall s,
    stock_nonneg s ->
    Forall creates_nonneg rs ->
    stock_nonneg (run rs s).
Proof.
  induction rs as [| r rs IH]; intros s Hs Hrs; simpl; [assumption |].
  inversion Hrs as [| ? ? Hr Hrs']; subst.
  apply IH; [| assumption].
  now apply handle_stock_nonneg.
Qed.

End Runs.

Lemma price_snapshot_witness :
  exists p o,
    products shop !! 1 = Some p /\
    orders (placed 42 (mkOrderData 1 3) widget shop) = orders shop ++ [o] /\
    quantity o = 3 /\
    total_price o = price p * 3 /\
    orders (evolve (fun pw => pw) String.eqb (fun _ => "token") (Abort 401)
              [CatalogEdit (fmap (fun q => mkProduct (name q) (description q)
                                                     (2 * price q) (stock q)));
               Api (DELETE_product (Some 42) 1);
               Api (POST_orders (Some 43) (mkOrderData 1 1))]
              (placed 42 (mkOrderData 1 3) widget shop))
      !! length (orders shop) = Some o.
Proof.
  apply (price_snapshot (fun pw => pw) String.eqb (fun _ => "token") (Abort 401)
           42 (mkOrderData 1 3) shop
           (placed 42 (mkOrderData 1 3) widget shop)
           (Reply (message "Order placed successfully") 201)).
  - reflexivity.
  - reflexivity.
Defined.

(** C1, as the claim has it, fails: [POST /products] stores the stock of the
    request body as it comes, so a body with a stock of -1 puts a product
    with a negative stock in the database. *)
Lemma negative_stock_created :
  products (ProductList_post (mkProductData "gadget" "a gadget" 500 (-1))
                             empty_db).1 !! 1
    = Some (mkProduct "gadget" "a gadget" 500 (-1)) /\
  ~ stock_nonneg (ProductList_post (mkProductData "gadget" "a gadget" 500 (-1))
                                   empty_db).1.
Proof.
  split; [reflexivity |].
  intros H. specialize (H 1 (mkProduct "gadget" "a gadget" 500 (-1))).
  simpl in H. specialize (H eq_refl). lia.
Qed.

Lemma stock_never_negative_witness :
  stock_nonneg empty_db /\
  Forall creates_nonneg
    [POST_products (Some 7) (mkProductData "widget" "a widget" 1000 5);
     POST_orders (Some 42) (mkOrderData 1 3);
     DELETE_product (Some 7) 1] /\
  stock_nonneg
    (run (fun pw => pw) String.eqb (fun _ => "token") (Abort 401)
       [POST_products (Some 7) (mkProductData "widget" "a widget" 1000 5);
        POST_orders (Some 42) (mkOrderData 1 3);
        DELETE_product (Some 7) 1]
       empty_db).
Proof.
  assert (H0 : stock_nonneg empty_db).
  { intros k p Hk. simpl in Hk. rewrite lookup_empty in Hk. discriminate Hk. }
  assert (H1 : Forall creates_nonneg
    [POST_products (Some 7) (mkProductData "widget" "a widget" 1000 5);
     POST_orders (Some 42) (mkOrderData 1 3);
     DELETE_product (Some 7) 1]).
  { repeat constructor. simpl. lia. }
  split; [exact H0 | split; [exact H1 |]].
  exact (stock_never_negative (fun pw => pw) String.eqb (fun _ => "token") (Abort 401)
           _ empty_db H0 H1).
Defined.

(** ** Two orders for the same product *)

(** A request that runs its two steps with nothing in between does what
    [OrderResource.post] does. *)
Lemma session_steps_post identity data s :
  let '(s1, t1) := session_step (Pending identity data) s in
  let '(s2, t2) := session_step t1 s1 in
  (s2, t2) = ((OrderResource_post identity data s).1,
              Finished (OrderResource_post identity data s).2).
Proof.
  unfold OrderResource_post. simpl.
  destruct (products s !! data_product_id data) as [p|] eqn:Hp; simpl.
  - destruct (stock p <? data_quantity data); [reflexivity |].
    rewrite Hp. reflexivity.
  - reflexivity.
Qed.

Lemma interleave_First sched s a b :
  interleave (First :: sched) (s, a, b)
    = interleave sched ((session_step a s).1, (session_step a s).2, b).
Proof. simpl. destruct (session_step a s); reflexivity. Qed.

Lemma interleave_Second sched s a b :
  interleave (Second :: sched) (s, a, b)
    = interleave sched ((session_step b s).1, a, (session_step b s).2).
Proof. simpl. destruct (session_step b s); reflexivity. Qed.

Lemma step_load identity data s p :
  products s !! data_product_id data = Some p ->
  session_step (Pending identity data) s = (s, Loaded identity data p).
Proof. intros H. simpl. now rewrite H. Qed.

Lemma step_reject identity data s p :
  stock p < data_quantity data ->
  session_step (Loaded identity data p) s
    = (s, Finished (Reply (message "Not enough stock") 400)).
Proof.
  intros H. simpl.
  destruct (Z.ltb_spec (stock p) (data_quantity data)); [reflexivity | lia].
Qed.

(** When the row is still as it was loaded, the commit leaves the database
    that [OrderResource.post] leaves. *)
Lemma step_commit identity data s p row :
  data_quantity data <= stock p ->
  products s !! data_product_id data = Some row ->
  session_step (Loaded identity data p) s
    = (mkState (users s)
               (<[data_product_id data :=
                    set_stock (stock p - data_quantity data) row]> (products s))
               (orders (placed identity data p s)),
       Finished (Reply (message "Order placed successfully") 201)).
Proof.
  intros Hle H. simpl.
  destruct (Z.ltb_spec (stock p) (data_quantity data)); [lia |].
  now rewrite H.
Qed.

Lemma step_commit_same identity data s p :
  data_quantity data <= stock p ->
  products s !! data_product_id data = Some p ->
  session_step (Loaded identity data p) s
    = (placed identity data p s,
       Finished (Reply (message "Order placed successfully") 201)).
Proof. intros Hle H. now rewrite (step_commit _ _ _ _ p Hle H). Qed.

(** The stock stays at zero or more under any interleaving as well: the
    commit of a request writes the stock it loaded less the quantity, which
    its test has found to be zero or more. *)
Lemma session_step_stock_nonneg t s :
  stock_nonneg s -> stock_nonneg (session_step t s).1.
Proof.
  intros Hs. destruct t as [i d | i d p | r]; simpl; try assumption.
  - destruct (products s !! data_product_id d); assumption.
  - destruct (Z.ltb_spec (stock p) (data_quantity d)); [assumption |].
    destruct (products s !! data_product_id d) as [row|]; [| assumption].
    simpl. apply map_Forall_insert_2; [simpl; lia | exact Hs].
Qed.

Lemma interleave_stock_nonneg sched :
  forall s a b,
    stock_nonneg s -> stock_nonneg (interleave sched (s, a, b)).1.1.
Proof.
  induction sched as [| [|] sched IH]; intros s a b Hs; [exact Hs | |].
  - rewrite interleave_First. apply IH. now apply session_step_stock_nonneg.
  - rewrite interleave_Second. apply IH. now apply session_step_stock_nonneg.
Qed.

(** C5, as the claim has it, fails: two orders for 3 against a stock of 5.
    When both requests load the product before either commits, both pass the
    test on the stock of 5 they loaded and both are answered 201; the ledger
    gains two orders, 6 units in all, and the stock is written as 2 twice. *)
Lemma both_orders_accepted :
  interleave [First; Second; First; Second]
    (shop, Pending 42 (mkOrderData 1 3), Pending 43 (mkOrderData 1 3))
  = (mkState [] {[ 1 := mkProduct "widget" "a widget" 1000 2 ]}
             [mkOrder 1 42 1 3 3000; mkOrder 2 43 1 3 3000],
     Finished (Reply (message "Order placed successfully") 201),
     Finished (Reply (message "Order placed successfully") 201)).
Proof. reflexivity. Qed.

(** C5, amended: two orders for 3 against a stock of 5, served one after the
    other in either sequence.  Both requests finish; one is answered 201 and
    the other 400 with "Not enough stock"; the product is left with a stock
    of 2 and the ledger has gained one order. *)
Theorem serial_orders_one_succeeds i1 i2 pid s p sched :
  products s !! pid = Some p ->
  stock p = 5 ->
  serial sched ->
  exists s' a b p',
    interleave sched
      (s, Pending i1 (mkOrderData pid 3), Pending i2 (mkOrderData pid 3))
      = (s', Finished a, Finished b) /\
    ((status a = 201 /\ b = Reply (message "Not enough stock") 400) \/
     (status b = 201 /\ a = Reply (message "Not enough stock") 400)) /\
    products s' !! pid = Some p' /\
    stock p' = 2 /\
    length (orders s') = S (length (orders s)).
Proof.
  intros Hp Hstock Hser.
  set (d := mkOrderData pid 3).
  assert (Hle : data_quantity d <= stock p) by (simpl; lia).
  assert (Hp' : forall i, products (placed i d p s) !! data_product_id d
                          = Some (set_stock 2 p)).
  { intros i. unfold placed; simpl. rewrite lookup_insert_eq.
    now rewrite Hstock. }
  assert (Hlt : stock (set_stock 2 p) < data_quantity d) by (simpl; lia).
  destruct Hser as [-> | ->].
  - exists (placed i1 d p s),
           (Reply (message "Order placed successfully") 201),
           (Reply (message "Not enough stock") 400), (set_stock 2 p).
    split; [| split; [left; split; reflexivity | split; [| split]]].
    + rewrite interleave_First, (step_load i1 d s p Hp); cbn [fst snd].
      rewrite interleave_First, (step_commit_same i1 d s p Hle Hp); cbn [fst snd].
      rewrite interleave_Second, (step_load i2 d _ _ (Hp' i1)); cbn [fst snd].
      rewrite interleave_Second, (step_reject i2 d _ _ Hlt); reflexivity.
    + apply Hp'.
    + reflexivity.
    + unfold placed; simpl. rewrite length_app; simpl. lia.
  - exists (placed i2 d p s),
           (Reply (message "Not enough stock") 400),
           (Reply (message "Order placed successfully") 201), (set_stock 2 p).
    split; [| split; [right; split; reflexivity | split; [| split]]].
    + rewrite interleave_Second, (step_load i2 d s p Hp); cbn [fst snd].
      rewrite interleave_Second, (step_commit_same i2 d s p Hle Hp); cbn [fst snd].
      rewrite interleave_First, (step_load i1 d _ _ (Hp' i2)); cbn [fst snd].
      rewrite interleave_First, (step_reject i1 d _ _ Hlt); reflexivity.
    + apply Hp'.
    + reflexivity.
    + unfold placed; simpl. rewrite length_app; simpl. lia.
Qed.

Lemma serial_orders_one_succeeds_witness :
  exists s' a b p',
    interleave [First; First; Second; Second]
      (shop, Pending 42 (mkOrderData 1 3), Pending 43 (mkOrderData 1 3))
      = (s', Finished a, Finished b) /\
    ((status a = 201 /\ b = Reply (message "Not enough stock") 400) \/
     (status b = 201 /\ a = Reply (message "Not enough stock") 400)) /\
    products s' !! 1 = Some p' /\
    stock p' = 2 /\
    length (orders s') = S (length (orders shop)).
Proof.
  apply (serial_orders_one_succeeds 42 43 1 shop widget).
  - reflexivity.
  - reflexivity.
  - left. reflexivity.
Defined.

(** ** Orders, one after the other *)

Lemma sold_app pid l1 l2 : sold pid (l1 ++ l2) = sold pid l1 + sold pid l2.
Proof. induction l1 as [| o l1 IH]; simpl; [reflexivity | rewrite IH; lia]. Qed.

(** Whatever its outcome, [OrderResource.post] keeps every product that is
    there, with its name, description and price, and keeps the sum of its
    stock and of the units the ledger has sold of it. *)
Lemma post_conserves_units identity data s pid p :
  products s !! pid = Some p ->
  exists p',
    products (OrderResource_post identity data s).1 !! pid = Some p' /\
    name p' = name p /\ description p' = description p /\
    price p' = price p /\
    stock p' + sold pid (orders (OrderResource_post identity data s).1)
      = stock p + sold pid (orders s).
Proof.
  intros Hp.
  destruct (post_inv identity data s) as [Hnone | q Hq Hlt | q Hq Hle];
    simpl; try (exists p; repeat split; assumption).
  rewrite sold_app; simpl.
  destruct (Z.eqb_spec (data_product_id data) pid) as [Heq | Hne].
  - subst pid. rewrite Hq in Hp. simplify_eq.
    exists (set_stock (stock p - data_quantity data) p).
    rewrite lookup_insert_eq. repeat split; simpl; lia.
  - exists p. rewrite lookup_insert_ne by assumption.
    repeat split; [assumption | lia].
Qed.

(** After an accepted order, [GET /orders] of the same caller answers what it
    answered before with the new order at the end, of the product and
    quantity asked for; what it answers to any other caller is unchanged. *)
Theorem placed_order_listed identity data s s' r :
  OrderResource_post identity data s = (s', r) ->
  status r = 201 ->
  exists o,
    product_id o = data_product_id data /\
    quantity o = data_quantity data /\
    (OrderResource_get identity s').2
      = Reply (JArr ((order_json <$> orders_of identity s) ++ [order_json o])) 200 /\
    (forall other, other <> identity ->
       (OrderResource_get other s').2 = (OrderResource_get other s).2).
Proof.
  intros Hpost Hok.
  destruct (post_inv identity data s) as [Hnone | p Hp Hlt | p Hp Hle];
    simplify_eq; try (simpl in Hok; lia).
  exists (mkOrder (next_order_id s) identity (data_product_id data)
                  (data_quantity data) (price p * data_quantity data)).
  split; [reflexivity |]. split; [reflexivity |]. split.
  - unfold OrderResource_get, orders_of, placed; simpl.
    rewrite filter_app, filter_cons_True by reflexivity.
    now rewrite filter_nil, fmap_app.
  - intros other Hne. unfold OrderResource_get, orders_of, placed; simpl.
    rewrite filter_app, filter_cons_False by (simpl; congruence).
    now rewrite filter_nil, app_nil_r.
Qed.

Lemma placed_order_listed_witness :
  exists o,
    product_id o = 1 /\
    quantity o = 3 /\
    (OrderResource_get 42 (placed 42 (mkOrderData 1 3) widget shop)).2
      = Reply (JArr ((order_json <$> orders_of 42 shop) ++ [order_json o])) 200 /\
    (forall other, other <> 42 ->
       (OrderResource_get other (placed 42 (mkOrderData 1 3) widget shop)).2
         = (OrderResource_get other shop).2).
Proof.
  apply (placed_order_listed 42 (mkOrderData 1 3) shop _
           (Reply (message "Order placed successfully") 201)).
  - reflexivity.
  - reflexivity.
Defined.

(** Of two orders for the same product served one after the other, the
    second is tested against what the first has left: it is accepted when
    its quantity is at most the stock less the first quantity, and answered
    400 otherwise. *)
Theorem second_order_sees_decrement i1 i2 pid q1 q2 s p :
  products s !! pid = Some p ->
  q1 <= stock p ->
  let s1 := (OrderResource_post i1 (mkOrderData pid q1) s).1 in
  (q2 <= stock p - q1 ->
   status (OrderResource_post i2 (mkOrderData pid q2) s1).2 = 201) /\
  (stock p - q1 < q2 ->
   OrderResource_post i2 (mkOrderData pid q2) s1
     = (s1, Reply (message "Not enough stock") 400)).
Proof.
  intros Hp Hq1 s1.
  assert (Hs1 : products s1 !! pid = Some (set_stock (stock p - q1) p)).
  { unfold s1. rewrite (post_enough i1 (mkOrderData pid q1) s p Hp Hq1).
    simpl. apply lookup_insert_eq. }
  split; intros Hq2.
  - rewrite (post_enough i2 (mkOrderData pid q2) s1 _ Hs1); [reflexivity |].
    simpl. lia.
  - apply (post_short i2 (mkOrderData pid q2) s1 _ Hs1). simpl. lia.
Qed.

Lemma second_order_sees_decrement_witness :
  (2 <= stock widget - 3 ->
   status (OrderResource_post 43 (mkOrderData 1 2)
             (OrderResource_post 42 (mkOrderData 1 3) shop).1).2 = 201) /\
  (stock widget - 3 < 2 ->
   OrderResource_post 43 (mkOrderData 1 2)
     (OrderResource_post 42 (mkOrderData 1 3) shop).1
     = ((OrderResource_post 42 (mkOrderData 1 3) shop).1,
        Reply (message "Not enough stock") 400)).
Proof.
  apply (second_order_sees_decrement 42 43 1 3 2 shop widget).
  - reflexivity.
  - simpl. lia.
Defined.

(** An order for a quantity of 0 of a product with a stock of zero or more
    is answered 201: the product table is left as it was and the ledger
    gains an order of quantity 0 and total 0. *)
Theorem zero_quantity_order identity pid s p :
  products s !! pid = Some p ->
  0 <= stock p ->
  OrderResource_post identity (mkOrderData pid 0) s
    = (mkState (users s) (products s)
               (orders s ++ [mkOrder (next_order_id s) identity pid 0 0]),
       Reply (message "Order placed successfully") 201).
Proof.
  intros Hp Hstock.
  rewrite (post_enough identity (mkOrderData pid 0) s p Hp) by (simpl; lia).
  unfold placed; simpl.
  replace (set_stock (stock p - 0) p) with p
    by (destruct p; unfold set_stock; simpl; f_equal; lia).
  rewrite (insert_id _ _ _ Hp). now rewrite Z.mul_0_r.
Qed.

Lemma zero_quantity_order_witness :
  OrderResource_post 42 (mkOrderData 1 0) shop
    = (mkState (users shop) (products shop)
               (orders shop ++ [mkOrder (next_order_id shop) 42 1 0 0]),
       Reply (message "Order placed successfully") 201).
Proof.
  apply (zero_quantity_order 42 1 shop widget).
  - reflexivity.
  - simpl. lia.
Defined.

(** ** The catalogue *)

(** [POST /products] puts the product under an id that no product had.
    [GET /products/<id>] then answers 200 with the name, price and stock of
    the body, every product that was there is read as before, and the
    ledger is untouched. *)
Theorem created_product_readable data s :
  exists pid : Z,
    products s !! pid = None /\
    ProductDetail_get pid (ProductList_post data s).1
      = ((ProductList_post data s).1,
         Reply (JObj [("id", JInt pid);
                      ("name", JStr (data_name data));
                      ("price", JMoney (data_price data));
                      ("stock", JInt (data_stock data))]) 200) /\
    (forall k p, products s !! k = Some p ->
       ProductDetail_get k (ProductList_post data s).1
         = ((ProductList_post data s).1, Reply (product_json k p) 200)) /\
    orders (ProductList_post data s).1 = orders s.
Proof.
  exists (next_product_id s).
  pose proof (next_product_id_fresh s) as Hfresh.
  split; [assumption |]. split; [| split; [| reflexivity]].
  - unfold ProductDetail_get, ProductList_post; simpl.
    now rewrite lookup_insert_eq.
  - intros k p Hk. unfold ProductDetail_get, ProductList_post; simpl.
    rewrite lookup_insert_ne by congruence. now rewrite Hk.
Qed.

(** After [DELETE /products/<id>], whether it answered 200 or aborted with
    404 because the product was not there, the product is absent: reading
    it, ordering it and deleting it again all abort with 404 and change
    nothing.  The other products and the ledger are as before the
    deletion. *)
Theorem deleted_product_gone pid s s' r :
  ProductDetail_delete pid s = (s', r) ->
  ((r = Reply (message "Product deleted successfully") 200 /\
    is_Some (products s !! pid)) \/
   (r = Abort 404 /\ s' = s)) /\
  ProductDetail_get pid s' = (s', Abort 404) /\
  (forall identity q,
     OrderResource_post identity (mkOrderData pid q) s' = (s', Abort 404)) /\
  ProductDetail_delete pid s' = (s', Abort 404) /\
  (forall k, k <> pid -> products s' !! k = products s !! k) /\
  orders s' = orders s.
Proof.
  intros Hdel. unfold ProductDetail_delete in Hdel.
  assert (Hgone : products s' !! pid = None).
  { destruct (products s !! pid) eqn:Hp; simplify_eq; simpl;
      [apply lookup_delete_eq | assumption]. }
  split; [| split; [| split; [| split; [| split]]]].
  - destruct (products s !! pid) eqn:Hp; simplify_eq; [left | right]; eauto.
  - unfold ProductDetail_get. now rewrite Hgone.
  - intros identity q. now apply post_absent.
  - unfold ProductDetail_delete. now rewrite Hgone.
  - intros k Hk. destruct (products s !! pid); simplify_eq; simpl;
      [now apply lookup_delete_ne | reflexivity].
  - destruct (products s !! pid); simplify_eq; reflexivity.
Qed.

Lemma deleted_product_gone_witness :
  ((Reply (message "Product deleted successfully") 200
      = Reply (message "Product deleted successfully") 200 /\
    is_Some (products shop !! 1)) \/
   (Reply (message "Product deleted successfully") 200 = Abort 404 /\
    mkState [] ∅ [] = shop)) /\
  ProductDetail_get 1 (mkState [] ∅ []) = (mkState [] ∅ [], Abort 404) /\
  (forall identity q,
     OrderResource_post identity (mkOrderData 1 q) (mkState [] ∅ [])
       = (mkState [] ∅ [], Abort 404)) /\
  ProductDetail_delete 1 (mkState [] ∅ []) = (mkState [] ∅ [], Abort 404) /\
  (forall k, k <> 1 -> products (mkState [] ∅ []) !! k = products shop !! k) /\
  orders (mkState [] ∅ []) = orders shop.
Proof.
  apply (deleted_product_gone 1 shop (mkState [] ∅ [])
           (Reply (message "Product deleted successfully") 200)).
  reflexivity.
Defined.

(** [GET /products] changes nothing and answers 200 with one entry for each
    product of the table and no other: an entry is in the body exactly when
    it is the encoding of a product under its id. *)
Theorem product_list_complete s :
  exists items : list json,
    ProductList_get s = (s, Reply (JArr items) 200) /\
    length items = size (products s) /\
    (forall j, j ∈ items <->
               exists pid p, products s !! pid = Some p /\
                             j = product_json pid p).
Proof.
  eexists. split; [reflexivity |]. split.
  - rewrite length_fmap. apply length_map_to_list.
  - intros j. rewrite list_elem_of_fmap. split.
    + intros [[k p] [-> Hin]]. exists k, p.
      split; [now apply elem_of_map_to_list | reflexivity].
    + intros (k & p & Hp & ->). exists (k, p).
      split; [reflexivity | now apply elem_of_map_to_list].
Qed.

(** ** Users, routes and whole runs *)

(** No user of the table has the name [uname]. *)
Lemma no_user_named (uname : string) (l : list User) :
  (forall u, u ∈ l -> username u <> uname) ->
  filter (fun u => username u = uname) l = [].
Proof.
  induction l as [| u l IH]; intros H; [reflexivity |].
  rewrite filter_cons_False by (apply H; left).
  apply IH. intros v Hv. apply H. now right.
Qed.

Section Service.

Variable generate_password_hash : string -> string.
Variable check_password_hash : string -> string -> bool.
Variable create_access_token : Z -> string.
Variable jwt_refusal : response.

#[local] Abbreviation handle :=
  (handle generate_password_hash check_password_hash create_access_token
     jwt_refusal).
#[local] Abbreviation run :=
  (run generate_password_hash check_password_hash create_access_token
     jwt_refusal).
#[local] Abbreviation login :=
  (LoginUser_post check_password_hash create_access_token).
#[local] Abbreviation register :=
  (RegisterUser_post generate_password_hash).

(** [POST /login] never changes the database and has two answers only.
    One is 401 with "Invalid credentials", the same for a name that is not
    registered and for a password that does not match.  The other is 200
    with a token made for the id of a registered user who has the name of
    the body and whose stored hash the password of the body passes. *)
Theorem login_outcomes data s :
  login data s = (s, Reply (message "Invalid credentials") 401) \/
  exists u,
    u ∈ users s /\
    username u = data_username data /\
    check_password_hash (password u) (data_password data) = true /\
    login data s
      = (s, Reply (JObj [("access_token",
                          JStr (create_access_token (user_pk u)))]) 200).
Proof.
  unfold LoginUser_post.
  destruct (first_user (data_username data) s) as [u|] eqn:Hu; [| now left].
  destruct (check_password_hash (password u) (data_password data)) eqn:Hc;
    [| now left].
  right. exists u.
  apply head_Some_elem_of in Hu. apply list_elem_of_filter in Hu as [Hn Hin].
  repeat split; assumption.
Qed.

(** A user who registers under a name that no user has can log in with the
    same body, when the hash of a password passes the check against that
    password: the answer is 200 with a token made for the id of the row
    just added. *)
Theorem register_then_login data s :
  (forall u, u ∈ users s -> username u <> data_username data) ->
  check_password_hash (generate_password_hash (data_password data))
                      (data_password data) = true ->
  exists u,
    last (users (RegisterUser_post generate_password_hash data s).1)
      = Some u /\
    username u = data_username data /\
    LoginUser_post check_password_hash create_access_token data
      (RegisterUser_post generate_password_hash data s).1
      = ((RegisterUser_post generate_password_hash data s).1,
         Reply (JObj [("access_token",
                       JStr (create_access_token (user_pk u)))]) 200).
Proof.
  intros Hfree Hcheck.
  exists (mkUser (next_user_id s) (data_username data)
                 (generate_password_hash (data_password data))).
  split; [| split; [reflexivity |]].
  - unfold RegisterUser_post; simpl.
    apply last_snoc.
  - unfold LoginUser_post, RegisterUser_post, first_user; simpl.
    rewrite filter_app.
    rewrite (no_user_named _ _ Hfree).
    rewrite filter_cons_True by reflexivity. simpl. now rewrite Hcheck.
Qed.

(** A registration does not disturb the logins that work: a body that
    [POST /login] answered with 200 gets the same answer after any
    [POST /register], since the login looks at the first user of that
    name. *)
Theorem login_survives_register data other s :
  status (login data s).2 = 200 ->
  (login data (register other s).1).2
    = (login data s).2.
Proof.
  unfold LoginUser_post, RegisterUser_post, first_user; simpl.
  rewrite filter_app.
  destruct (filter (fun u => username u = data_username data) (users s))
    as [| u l] eqn:Hf; simpl.
  - intros H. lia.
  - intros _.
    destruct (check_password_hash (password u) (data_password data));
      reflexivity.
Qed.

Lemma login_keeps_db data s : (login data s).1 = s.
Proof.
  unfold LoginUser_post.
  destruct (first_user (data_username data) s) as [u|]; [| reflexivity].
  destruct (check_password_hash (password u) (data_password data));
    reflexivity.
Qed.

Lemma reads_keep_db r s : reads_only r = true -> (handle r s).1 = s.
Proof.
  destruct r as [d | d | | [i|] d | pid | [i|] pid | [i|] d | [i|] | ];
    simpl; intros H; simplify_eq; try reflexivity.
  - apply login_keeps_db.
  - unfold ProductDetail_get. destruct (products s !! pid); reflexivity.
Qed.

(** The GET routes and the login leave the database as it is. *)
Theorem reads_change_nothing r s :
  reads_only r = true ->
  (handle r s).1 = s.
Proof.
  intros Hr. destruct (handle r s) as [s' resp] eqn:Hh.
  pose proof (reads_keep_db r s Hr) as Hk. rewrite Hh in Hk. exact Hk.
Qed.

Lemma anonymous_handle r s :
  anonymous r ->
  products (handle r s).1 = products s /\ orders (handle r s).1 = orders s.
Proof.
  intros Hr. destruct (reads_only r) eqn:Hro.
  { now rewrite (reads_keep_db r s Hro). }
  destruct r as [d | d | | [i|] d | pid | [i|] pid | [i|] d | [i|] | ];
    simpl in *; simplify_eq; try contradiction; split; reflexivity.
Qed.

(** Without an identity nobody writes the catalogue or the ledger: after any
    sequence of requests that carry no identity (requests to the routes that
    are not decorated, registrations and logins among them, and requests to
    a decorated route without a valid token), the products and the orders
    are what they were. *)
Theorem anonymous_cannot_write rs :
  forall s,
    Forall anonymous rs ->
    products (run rs s) = products s /\ orders (run rs s) = orders s.
Proof.
  induction rs as [| r rs IH]; intros s Hrs; simpl; [split; reflexivity |].
  inversion Hrs as [| ? ? Hr Hrs']; subst.
  destruct (anonymous_handle r s Hr) as [Hp Ho].
  destruct (IH (handle r s).1 Hrs') as [Hp' Ho'].
  split; congruence.
Qed.

(** Which requests write which table: the users change only by a
    registration, the ledger only by an order sent with an identity, the
    products only by a creation, a deletion or an order sent with an
    identity. *)
Theorem tables_written_by r s :
  (users (handle r s).1 <> users s -> exists d, r = POST_register d) /\
  (orders (handle r s).1 <> orders s ->
   exists i d, r = POST_orders (Some i) d) /\
  (products (handle r s).1 <> products s ->
   (exists i d, r = POST_products (Some i) d) \/
   (exists i k, r = DELETE_product (Some i) k) \/
   (exists i d, r = POST_orders (Some i) d)).
Proof.
  destruct (reads_only r) eqn:Hr.
  - rewrite (reads_keep_db r s Hr). repeat split; congruence.
  - destruct r as [d | d | | [i|] d | pid | [i|] pid | [i|] d | [i|] | ];
      simpl in *; simplify_eq;
      repeat split; intros H; eauto 6; try congruence.
    + exfalso. apply H. unfold ProductDetail_delete.
      destruct (products s !! pid); reflexivity.
    + exfalso. apply H. unfold ProductDetail_delete.
      destruct (products s !! pid); reflexivity.
    + exfalso. apply H.
      destruct (post_inv i d s); reflexivity.
Qed.

Lemma handle_conserves_units r s pid p :
  keeps pid r ->
  products s !! pid = Some p ->
  exists p',
    products (handle r s).1 !! pid = Some p' /\
    name p' = name p /\ description p' = description p /\
    price p' = price p /\
    stock p' + sold pid (orders (handle r s).1)
      = stock p + sold pid (orders s).
Proof.
  intros Hr Hp.
  destruct (reads_only r) eqn:Hro.
  { rewrite (reads_keep_db r s Hro). exists p. now repeat split. }
  destruct r as [d | d | | [i|] d | k | [i|] k | [i|] d | [i|] | ];
    simpl in *; simplify_eq; try (exists p; now repeat split).
  - exists p. rewrite lookup_insert_ne; [now repeat split |].
    intros Heq. pose proof (next_product_id_fresh s) as Hf.
    rewrite Heq in Hf. congruence.
  - unfold ProductDetail_delete.
    destruct (products s !! k); simpl; exists p;
      [rewrite lookup_delete_ne by assumption |]; now repeat split.
  - now apply post_conserves_units.
Qed.

(** While a product is not deleted, no sequence of requests changes its
    name, its description or its price, and the sum of its stock and of the
    units the ledger has sold of it stays what it was: each accepted order
    takes from the stock what it adds to the ledger. *)
Theorem units_conserved pid rs :
  forall s p,
    products s !! pid = Some p ->
    Forall (keeps pid) rs ->
    exists p',
      products (run rs s) !! pid = Some p' /\
      name p' = name p /\ description p' = description p /\
      price p' = price p /\
      stock p' + sold pid (orders (run rs s))
        = stock p + sold pid (orders s).
Proof.
  induction rs as [| r rs IH]; intros s p Hp Hrs; simpl.
  - exists p. now repeat split.
  - inversion Hrs as [| ? ? Hr Hrs']; subst.
    destruct (handle_conserves_units r s pid p Hr Hp)
      as (p1 & Hp1 & Hn1 & Hd1 & Hpr1 & Hu1).
    destruct (IH _ p1 Hp1 Hrs') as (p2 & Hp2 & Hn2 & Hd2 & Hpr2 & Hu2).
    exists p2. repeat split; congruence || lia.
Qed.

Lemma run_units_and_stock pid rs :
  forall s p,
    products s !! pid = Some p ->
    stock_nonneg s ->
    Forall creates_nonneg rs ->
    Forall (keeps pid) rs ->
    exists p',
      products (run rs s) !! pid = Some p' /\
      0 <= stock p' /\
      stock p' + sold pid (orders (run rs s))
        = stock p + sold pid (orders s).
Proof.
  induction rs as [| r rs IH]; intros s p Hp Hs Hcr Hrs; simpl.
  - exists p. split; [assumption |]. split; [| reflexivity].
    exact (Hs pid p Hp).
  - inversion Hcr as [| ? ? Hc Hcr']; inversion Hrs as [| ? ? Hr Hrs']; subst.
    destruct (handle_conserves_units r s pid p Hr Hp)
      as (p1 & Hp1 & _ & _ & _ & Hu1).
    pose proof (handle_stock_nonneg generate_password_hash
                  check_password_hash create_access_token jwt_refusal
                  r s Hc Hs) as Hs1.
    destruct (IH _ p1 Hp1 Hs1 Hcr' Hrs') as (p2 & Hp2 & Hn2 & Hu2).
    exists p2. repeat split; [assumption | assumption | lia].
Qed.

(** Served one after the other, the requests never sell more of a product
    than there was: from a database where every stock is zero or more, after
    any sequence of requests that creates no product with a negative stock
    and does not delete the product, the units the ledger has gained for it
    are at most its stock at the start. *)
Theorem never_oversold pid rs s p :
  products s !! pid = Some p ->
  stock_nonneg s ->
  Forall creates_nonneg rs ->
  Forall (keeps pid) rs ->
  sold pid (orders (run rs s)) - sold pid (orders s) <= stock p.
Proof.
  intros Hp Hs Hcr Hrs.
  destruct (run_units_and_stock pid rs s p Hp Hs Hcr Hrs)
    as (p' & _ & Hpos & Hu).
  lia.
Qed.

End Service.

Lemma register_then_login_witness :
  exists u,
    last (users (RegisterUser_post (fun pw => pw)
                   (mkCredentials "ann" "secret") empty_db).1) = Some u /\
    username u = "ann" /\
    LoginUser_post String.eqb (fun _ => "token") (mkCredentials "ann" "secret")
      (RegisterUser_post (fun pw => pw) (mkCredentials "ann" "secret")
         empty_db).1
      = ((RegisterUser_post (fun pw => pw) (mkCredentials "ann" "secret")
            empty_db).1,
         Reply (JObj [("access_token", JStr "token")]) 200).
Proof.
  apply (register_then_login (fun pw => pw) String.eqb (fun _ => "token")
           (mkCredentials "ann" "secret") empty_db).
  - intros u Hu. simpl in Hu. inversion Hu.
  - reflexivity.
Defined.

Lemma login_survives_register_witness :
  (LoginUser_post String.eqb (fun _ => "token") (mkCredentials "ann" "secret")
     (RegisterUser_post (fun pw => pw) (mkCredentials "ann" "other")
        (mkState [mkUser 1 "ann" "secret"] ∅ [])).1).2
  = (LoginUser_post String.eqb (fun _ => "token") (mkCredentials "ann" "secret")
       (mkState [mkUser 1 "ann" "secret"] ∅ [])).2.
Proof.
  apply (login_survives_register (fun pw => pw) String.eqb (fun _ => "token")).
  reflexivity.
Defined.

Lemma anonymous_cannot_write_witness :
  products (run (fun pw => pw) String.eqb (fun _ => "token") (Abort 401)
              [POST_orders None (mkOrderData 1 3);
               POST_register (mkCredentials "ann" "secret");
               DELETE_product None 1;
               POST_products None (mkProductData "gadget" "a gadget" 500 4);
               GET_products] shop) = products shop /\
  orders (run (fun pw => pw) String.eqb (fun _ => "token") (Abort 401)
            [POST_orders None (mkOrderData 1 3);
             POST_register (mkCredentials "ann" "secret");
             DELETE_product None 1;
             POST_products None (mkProductData "gadget" "a gadget" 500 4);
             GET_products] shop) = orders shop.
Proof.
  apply (anonymous_cannot_write (fun pw => pw) String.eqb (fun _ => "token")
           (Abort 401)).
  repeat constructor.
Defined.

Lemma reads_change_nothing_witness :
  (handle (fun pw => pw) String.eqb (fun _ => "token") (Abort 401) (GET_product 1) shop).1
  = shop.
Proof.
  apply (reads_change_nothing (fun pw => pw) String.eqb (fun _ => "token") (Abort 401)).
  reflexivity.
Defined.

Lemma units_conserved_witness :
  exists p',
    products (run (fun pw => pw) String.eqb (fun _ => "token") (Abort 401)
                [POST_orders (Some 42) (mkOrderData 1 3);
                 POST_products (Some 7) (mkProductData "gadget" "a gadget" 500 4);
                 DELETE_product (Some 7) 2;
                 POST_orders (Some 43) (mkOrderData 1 9)] shop) !! 1 = Some p' /\
    name p' = name widget /\ description p' = description widget /\
    price p' = price widget /\
    stock p' + sold 1 (orders (run (fun pw => pw) String.eqb (fun _ => "token") (Abort 401)
                [POST_orders (Some 42) (mkOrderData 1 3);
                 POST_products (Some 7) (mkProductData "gadget" "a gadget" 500 4);
                 DELETE_product (Some 7) 2;
                 POST_orders (Some 43) (mkOrderData 1 9)] shop))
      = stock widget + sold 1 (orders shop).
Proof.
  apply (units_conserved (fun pw => pw) String.eqb (fun _ => "token") (Abort 401) 1).
  - reflexivity.
  - repeat constructor. simpl. lia.
Defined.

Lemma never_oversold_witness :
  sold 1 (orders (run (fun pw => pw) String.eqb (fun _ => "token") (Abort 401)
                    [POST_orders (Some 42) (mkOrderData 1 3);
                     POST_orders (Some 43) (mkOrderData 1 3);
                     POST_orders (Some 44) (mkOrderData 1 2)] shop))
    - sold 1 (orders shop) <= stock widget.
Proof.
  apply (never_oversold (fun pw => pw) String.eqb (fun _ => "token") (Abort 401) 1).
  - reflexivity.
  - apply map_Forall_singleton. simpl. lia.
  - repeat constructor.
  - repeat constructor.
Defined.

Lemma interleave_stock_nonneg_witness :
  stock_nonneg
    (interleave [First; Second; First; Second]
       (shop, Pending 42 (mkOrderData 1 3), Pending 43 (mkOrderData 1 3))).1.1.
Proof.
  apply (interleave_stock_nonneg [First; Second; First; Second]).
  apply map_Forall_singleton. simpl. lia.
Defined.

(** ** The ledger is append-only *)

Section Ledger.

Variable generate_password_hash : string -> string.
Variable check_password_hash : string -> string -> bool.
Variable create_access_token : Z -> string.
Variable jwt_refusal : response.

#[local] Abbreviation evolve :=
  (evolve generate_password_hash check_password_hash create_access_token
     jwt_refusal).

(** Whatever happens to the database (requests of the API, changes of the
    product table from outside), what [GET /orders] answers to a caller only
    grows at its end: the entries it listed before are listed after, the
    same and in the same places, and no handler removes or rewrites an
    order. *)
Theorem listing_only_grows identity es s :
  exists more : list json,
    (OrderResource_get identity (evolve es s)).2
      = Reply (JArr ((order_json <$> orders_of identity s) ++ more)) 200.
Proof.
  destruct (evolve_orders_grow generate_password_hash check_password_hash
              create_access_token jwt_refusal es s) as [k Hk].
  exists (order_json <$> filter (fun o => user_id o = identity) k).
  unfold OrderResource_get, orders_of; simpl.
  now rewrite Hk, filter_app, fmap_app.
Qed.

End Ledger.
